(** * The advanced-search mapping-criteria view model

    A shallow embedding of
    [src/ggrc/assets/javascripts/components/advanced-search/advanced-search-mapping-criteria.js]
    and the properties of its methods.

    The component is a [can.Map] whose [criteria] attribute is itself a
    [can.Map].  Observable maps are finite maps from attribute names to
    JavaScript values; the lodash helpers the component calls are written out
    as list functions; the globals it reads ([CMS.Models], [GGRC.Mappings],
    the [GGRC.Utils.AdvancedSearch.create] factories) are the variables of a
    section. *)

From Stdlib Require Import Sorting.Sorted.
From stdpp Require Import gmap strings list sorting.

Local Open Scope string_scope.
Set Default Proof Using "Type".
Local Set Warnings "-register-all,-clear-no-such-hyp".

(** ** JavaScript values *)

Module Js.

(** The values an attribute of a [can.Map] can hold.  Numbers are the
    integral ones; an object is the list of its own properties. *)
Inductive value : Type :=
  | VUndefined
  | VNull
  | VBool (b : bool)
  | VNum (n : Z)
  | VStr (s : string)
  | VObj (fields : list (string * value)).

(** [ToBoolean]: what [if (v)] and [!v] test. *)
Definition truthy (v : value) : bool :=
  match v with
  | VUndefined | VNull => false
  | VBool b => b
  | VNum n => negb (n =? 0)%Z
  | VStr s => match s with EmptyString => false | String _ _ => true end
  | VObj _ => true
  end.

(** [a && b] evaluates to [a] when [a] is falsy and to [b] otherwise. *)
Definition logical_and (a b : value) : value := if truthy a then b else a.

(** A static string property of a constructor: [None] when the property is
    not defined. *)
Definition of_prop (p : option string) : value :=
  match p with
  | Some s => VStr s
  | None => VUndefined
  end.

(** [ToString] on such a property, as string concatenation applies it. *)
Definition prop_to_string (p : option string) : string :=
  match p with
  | Some s => s
  | None => "undefined"
  end.

(** [ToPropertyKey] on a value that is [null] or a string, as [o[k]]
    applies it. *)
Definition property_key (k : option string) : string :=
  match k with
  | Some s => s
  | None => "null"
  end.

(** The outcome of a method call: it returns, or it throws a [TypeError]. *)
Inductive result (A : Type) : Type :=
  | Ok (a : A)
  | TypeError (msg : string).
Global Arguments Ok {A} a.
Global Arguments TypeError {A} msg.

End Js.
Import Js.

(** ** Observable maps ([can.Map]) *)

Module CanMap.

(** [m.attr(k)] and the plain property read [m.k]: an attribute that is not
    there reads as [undefined]. *)
Definition attr_get (m : gmap string value) (k : string) : value :=
  default VUndefined (m !! k).

(** [m.attr(k, v)] adds the attribute or replaces its value. *)
Definition attr_set (m : gmap string value) (k : string) (v : value)
  : gmap string value :=
  <[k := v]> m.

(** [m.removeAttr(k)] deletes the attribute; deleting an attribute that is
    not there does nothing. *)
Definition removeAttr (m : gmap string value) (k : string)
  : gmap string value :=
  delete k m.

End CanMap.
Import CanMap.

(** ** The lodash helpers used by [mappingTypes] *)

Module lodash.

Section helpers.
Context {A B : Type}.

(** [_.keys(o)] for an object given by its own enumerable properties in
    enumeration order. *)
Definition keys (o : list (string * B)) : list string := o.*1.

(** [_.map(l, f)]. *)
Definition map (f : A → B) (l : list A) : list B := f <$> l.

(** [_.compact(l)] on a list of lookups: the [undefined] entries go. *)
Fixpoint compact (l : list (option A)) : list A :=
  match l with
  | [] => []
  | Some x :: l' => x :: compact l'
  | None :: l' => compact l'
  end.

(** [_.filter(l, f)] keeps the elements for which [f] returns a truthy
    value. *)
Fixpoint filter (f : A → value) (l : list A) : list A :=
  match l with
  | [] => []
  | x :: l' => if truthy (f x) then x :: filter f l' else filter f l'
  end.

(** [_.first(l)]: [undefined] on the empty list. *)
Definition first (l : list A) : option A :=
  match l with
  | [] => None
  | x :: _ => Some x
  end.

End helpers.

(** lodash's ascending comparison of two sort keys that are strings or
    [undefined]: strings compare by code unit, [undefined] comes after
    every string. *)
Definition compareAscending (a b : option string) : comparison :=
  match a, b with
  | Some x, Some y => String.compare x y
  | Some _, None => Lt
  | None, Some _ => Gt
  | None, None => Eq
  end.

Section sortBy.
Context {A : Type} (key : A → option string).

(** [x] came before every element of the sorted list [l] in the input: it
    goes in front of the first element whose key is not smaller. *)
Fixpoint sortBy_insert (x : A) (l : list A) : list A :=
  match l with
  | [] => [x]
  | y :: l' =>
      match compareAscending (key x) (key y) with
      | Gt => y :: sortBy_insert x l'
      | _ => x :: y :: l'
      end
  end.

(** [_.sortBy(l, 'key')]: a stable sort, ascending in the key. *)
Fixpoint sortBy (l : list A) : list A :=
  match l with
  | [] => []
  | x :: l' => sortBy_insert x (sortBy l')
  end.

End sortBy.

End lodash.

(** ** Model constructors registered in [CMS.Models] *)

(** A constructor, by the two static properties the component reads; each
    is a string or is not defined. *)
Record Model : Type := {
  model_singular : option string;
  title_singular : option string;
}.

(** ** The view model *)

Record ViewModel : Type := {
  criteria : gmap string value;
  modelName : option string;
  root : bool;
  availableAttributes : list value;
}.

(** The component as [can.Map.extend] declares it: [criteria] is an empty
    [can.Map], [modelName] is [null], [root] is [false]. *)
Definition initial : ViewModel :=
  {| criteria := ∅; modelName := None; root := false;
     availableAttributes := [] |}.

(** [this.attr('criteria.' + k, v)] and [this.removeAttr('criteria.' + k)]
    act on the nested map. *)
Definition attr_criteria (vm : ViewModel) (k : string) (v : value) : ViewModel :=
  {| criteria := attr_set (criteria vm) k v;
     modelName := modelName vm;
     root := root vm;
     availableAttributes := availableAttributes vm |}.

Definition removeAttr_criteria (vm : ViewModel) (k : string) : ViewModel :=
  {| criteria := removeAttr (criteria vm) k;
     modelName := modelName vm;
     root := root vm;
     availableAttributes := availableAttributes vm |}.

(** [this.dispatch(event)] hands the event to the listeners bound on the view
    model: the call yields the events sent out and the view model after it. *)
Definition dispatch (vm : ViewModel) (event : string) : list string * ViewModel :=
  ([event], vm).

(** The two actions the template offers on the relevance sub-clause: they
    call [addRelevant] and [removeRelevant]. *)
Inductive RelevantAction : Type :=
  | AddRelevant
  | RemoveRelevant.

(** ** Orders and predicates the properties are stated with *)

(** The order [_.sortBy] sorts in: [a] does not compare greater than [b]. *)
Definition key_le (a b : option string) : Prop :=
  lodash.compareAscending a b ≠ Gt.

(** A model type with a non-empty singular identifier and a non-empty
    singular title. *)
Definition named (m : Model) : Prop :=
  ∃ s t, model_singular m = Some s ∧ s ≠ "" ∧
         title_singular m = Some t ∧ t ≠ "".

(** Ascending order of singular identifiers, as strings. *)
Definition singular_le (a b : Model) : Prop :=
  ∃ x y, model_singular a = Some x ∧ model_singular b = Some y ∧
         String.leb x y = true.

(** ** The factories and a small registry for the examples *)

Module create.

(** Modelled from the spec: [GGRC.Utils.AdvancedSearch.create.attribute],
    defined in another file of the repository; its result is "a default
    empty attribute filter". *)
Definition attribute : value :=
  VObj [("type", VStr "attribute"); ("value", VObj [])].

(** Modelled from the spec: [GGRC.Utils.AdvancedSearch.create.mappingCriteria],
    defined in another file of the repository; its result is "a new nested
    Criteria node (with its own default filter)". *)
Definition mappingCriteria : value :=
  VObj [("filter", attribute)].

End create.

Module Sample.

Definition Program : Model :=
  {| model_singular := Some "Program"; title_singular := Some "Program" |}.

Definition Control : Model :=
  {| model_singular := Some "Control"; title_singular := Some "Control" |}.

Definition Audit : Model :=
  {| model_singular := Some "Audit"; title_singular := Some "Audit" |}.

(** A constructor that declares no singular title. *)
Definition Untitled : Model :=
  {| model_singular := Some "Untitled"; title_singular := None |}.

Definition Models : gmap string Model :=
  {[ "Program" := Program; "Control" := Control; "Audit" := Audit;
     "Untitled" := Untitled ]}.

(** Programs map to controls, to the untitled constructor, to audits and to
    one name that is no registered constructor; no other model has
    mappings. *)
Definition mappings (name : option string) : list (string * unit) :=
  if decide (name = Some "Program")
  then [("Control", ()); ("Untitled", ()); ("Audit", ()); ("Person", ())]
  else [].

(** The component placed under a program clause, nothing selected yet. *)
Definition program_clause : ViewModel :=
  {| criteria := ∅; modelName := Some "Program"; root := false;
     availableAttributes := [] |}.

(** The component placed under an audit clause: audits have no mappings. *)
Definition audit_clause : ViewModel :=
  {| criteria := ∅; modelName := Some "Audit"; root := false;
     availableAttributes := [] |}.

(** The component placed under a clause of the untitled constructor. *)
Definition untitled_clause : ViewModel :=
  {| criteria := ∅; modelName := Some "Untitled"; root := false;
     availableAttributes := [] |}.

(** A criteria record with a selected type and no filter yet. *)
Definition unfiltered : gmap string value :=
  {[ "objectName" := VStr "Control" ]}.

(** The same record with a filter on the title. *)
Definition filtered : gmap string value :=
  {[ "objectName" := VStr "Control";
     "filter" := VObj [("type", VStr "attribute");
                       ("value", VObj [("field", VStr "title")])] ]}.

(** The same record with a [filter] field that holds [null]. *)
Definition null_filter : gmap string value :=
  {[ "objectName" := VStr "Control"; "filter" := VNull ]}.

(** A criteria record whose relevance sub-clause already names a type. *)
Definition with_relevant : ViewModel :=
  {| criteria := {[ "objectName" := VStr "Control";
                    "mappedTo" := VObj [("objectName", VStr "Audit")] ]};
     modelName := Some "Program"; root := false;
     availableAttributes := [] |}.

End Sample.

Section viewModel.

(** [CMS.Models]: the registered constructors by name (the own properties
    of the namespace object). *)
Variable CMS_Models : gmap string Model.

(** [GGRC.Mappings.get_canonical_mappings_for]: for a model name, an object
    from related model names to mapping descriptors. *)
Variable Mapping : Type.
Variable get_canonical_mappings_for : option string → list (string * Mapping).

(** What [GGRC.Utils.AdvancedSearch.create.attribute()] and
    [GGRC.Utils.AdvancedSearch.create.mappingCriteria()] return. *)
Variable create_attribute : value.
Variable create_mappingCriteria : value.

(** The setter of the [criteria] attribute. *)
Definition criteria_set (criteria : gmap string value) : gmap string value :=
  if negb (truthy (attr_get criteria "filter"))
  then attr_set criteria "filter" create_attribute
  else criteria.

(** The local [types] of [mappingTypes]. *)
Definition types (vm : ViewModel) : list Model :=
  let mappings := get_canonical_mappings_for (modelName vm) in
  lodash.filter
    (λ mapping,
       logical_and (of_prop (model_singular mapping))
                   (of_prop (title_singular mapping)))
    (lodash.sortBy model_singular
       (lodash.compact
          (lodash.map (λ mapping, CMS_Models !! mapping)
             (lodash.keys mappings)))).

Definition mappingTypes (vm : ViewModel) : result (list Model * ViewModel) :=
  if negb (truthy (attr_get (criteria vm) "objectName"))
  then
    match lodash.first (types vm) with
    | Some m =>
        Ok (types vm,
            attr_criteria vm "objectName" (of_prop (model_singular m)))
    | None =>
        TypeError "Cannot read property 'model_singular' of undefined"
    end
  else Ok (types vm, vm).

Definition title (vm : ViewModel) : result string :=
  if root vm then Ok "Mapped To"
  else
    match CMS_Models !! property_key (modelName vm) with
    | Some m =>
        Ok ("Where " +:+ prop_to_string (title_singular m)
              +:+ " is mapped to")
    | None =>
        TypeError "Cannot read property 'title_singular' of undefined"
    end.

Definition remove (vm : ViewModel) : list string * ViewModel :=
  dispatch vm "remove".

Definition addRelevant (vm : ViewModel) : ViewModel :=
  attr_criteria vm "mappedTo" create_mappingCriteria.

Definition removeRelevant (vm : ViewModel) : ViewModel :=
  removeAttr_criteria vm "mappedTo".

(** [this.attr('criteria', c)]: the setter runs on the record and the record
    it returns becomes the attribute. *)
Definition assign_criteria (vm : ViewModel) (c : gmap string value) : ViewModel :=
  {| criteria := criteria_set c;
     modelName := modelName vm;
     root := root vm;
     availableAttributes := availableAttributes vm |}.

(** One click on the relevance toggle, and a run of clicks from left to
    right. *)
Definition relevant_step (vm : ViewModel) (a : RelevantAction) : ViewModel :=
  match a with
  | AddRelevant => addRelevant vm
  | RemoveRelevant => removeRelevant vm
  end.

Definition relevant_run (vm : ViewModel) (actions : list RelevantAction)
  : ViewModel :=
  foldl relevant_step vm actions.

(** ** Properties of the lodash helpers *)

Section lodash_facts.

Lemma compareAscending_antisym (a b : option string) :
  lodash.compareAscending a b = CompOpp (lodash.compareAscending b a).
Proof.
  destruct a as [x|], b as [y|]; simpl; try reflexivity.
  apply String.compare_antisym.
Qed.

Lemma key_le_strings (x y : string) :
  key_le (Some x) (Some y) ↔ String.leb x y = true.
Proof.
  unfold key_le, String.leb; simpl.
  destruct (String.compare x y); split; congruence.
Qed.

Lemma key_le_trans (a b c : option string) :
  key_le a b → key_le b c → key_le a c.
Proof.
  destruct a as [x|], b as [y|], c as [z|]; unfold key_le; simpl;
    try congruence.
  intros Hxy Hyz.
  change (key_le (Some x) (Some z)). apply key_le_strings.
  apply (proj1 (key_le_strings x y)) in Hxy.
  apply (proj1 (key_le_strings y z)) in Hyz.
  apply Is_true_true. apply Is_true_true in Hxy, Hyz.
  change (String.le x z). by trans y.
Qed.

Lemma key_le_of_Gt (a b : option string) :
  lodash.compareAscending a b = Gt → key_le b a.
Proof.
  unfold key_le. rewrite (compareAscending_antisym b a).
  intros ->. discriminate.
Qed.

Context {A : Type} (key : A → option string).

Lemma Forall_sortBy_insert (P : A → Prop) (x : A) (l : list A) :
  P x → Forall P l → Forall P (lodash.sortBy_insert key x l).
Proof.
  intros Hx. induction 1 as [|z l Hz Hl IH]; simpl.
  - by constructor.
  - destruct (lodash.compareAscending (key x) (key z));
      repeat (constructor; try done).
Qed.

Lemma sortBy_insert_sorted (x : A) (l : list A) :
  StronglySorted (λ a b, key_le (key a) (key b)) l →
  StronglySorted (λ a b, key_le (key a) (key b)) (lodash.sortBy_insert key x l).
Proof.
  induction 1 as [|z l Hl IH Hz]; simpl.
  - repeat constructor.
  - destruct (lodash.compareAscending (key x) (key z)) eqn:Hc.
    + constructor; [by constructor|].
      assert (key_le (key x) (key z)) by (unfold key_le; congruence).
      constructor; [done|].
      eapply Forall_impl; [exact Hz|]. intros ??. by eapply key_le_trans.
    + constructor; [by constructor|].
      assert (key_le (key x) (key z)) by (unfold key_le; congruence).
      constructor; [done|].
      eapply Forall_impl; [exact Hz|]. intros ??. by eapply key_le_trans.
    + constructor; [done|].
      apply Forall_sortBy_insert; [|done]. by apply key_le_of_Gt.
Qed.

Lemma sortBy_sorted (l : list A) :
  StronglySorted (λ a b, key_le (key a) (key b)) (lodash.sortBy key l).
Proof.
  induction l as [|x l IH]; simpl; [constructor|].
  by apply sortBy_insert_sorted.
Qed.

Lemma Forall_sortBy (P : A → Prop) (l : list A) :
  Forall P l → Forall P (lodash.sortBy key l).
Proof.
  induction 1 as [|x l Hx Hl IH]; simpl; [constructor|].
  by apply Forall_sortBy_insert.
Qed.

Lemma Forall_compact_map {K : Type} (P : A → Prop) (g : K → option A)
    (ks : list K) :
  (∀ k x, k ∈ ks → g k = Some x → P x) →
  Forall P (lodash.compact (lodash.map g ks)).
Proof.
  induction ks as [|k ks IH]; intros HP; simpl; [constructor|].
  destruct (g k) as [x|] eqn:Hk; simpl.
  - constructor.
    + apply (HP k x); [left | done].
    + apply IH. intros k' x' Hk'. apply HP. by right.
  - apply IH. intros k' x' Hk'. apply HP. by right.
Qed.

Lemma Forall_filter (P : A → Prop) (f : A → value) (l : list A) :
  Forall P l → Forall P (lodash.filter f l).
Proof.
  induction 1 as [|x l Hx Hl IH]; simpl; [constructor|].
  destruct (truthy (f x)); [by constructor | done].
Qed.

Lemma filter_truthy (f : A → value) (l : list A) :
  Forall (λ x, truthy (f x) = true) (lodash.filter f l).
Proof.
  induction l as [|x l IH]; simpl; [constructor|].
  destruct (truthy (f x)) eqn:Hx; [by constructor | done].
Qed.

Lemma filter_sorted (R : relation A) (f : A → value) (l : list A) :
  StronglySorted R l → StronglySorted R (lodash.filter f l).
Proof.
  induction 1 as [|x l Hl IH Hx]; simpl; [constructor|].
  destruct (truthy (f x)); [|done].
  constructor; [done|]. by apply Forall_filter.
Qed.

End lodash_facts.

(** ** The criteria setter *)

Lemma criteria_set_absent (c : gmap string value) :
  truthy (attr_get c "filter") = false →
  criteria_set c = <["filter" := create_attribute]> c.
Proof. unfold criteria_set, attr_set. by intros ->. Qed.

Lemma criteria_set_present (c : gmap string value) :
  truthy (attr_get c "filter") = true →
  criteria_set c = c.
Proof. unfold criteria_set. by intros ->. Qed.

(** Whatever the record, assigning it twice is assigning it once, the default
    filter being an object. *)
Lemma criteria_set_idempotent (c : gmap string value) :
  truthy create_attribute = true →
  criteria_set (criteria_set c)
  = criteria_set c.
Proof.
  intros Hobj. apply criteria_set_present.
  destruct (truthy (attr_get c "filter")) eqn:Hc.
  - by rewrite criteria_set_present.
  - rewrite criteria_set_absent by done.
    unfold attr_get. by rewrite lookup_insert_eq.
Qed.

(** C2: a criteria record with no [filter] field comes back from the setter
    with the default attribute filter under [filter] and every other field as
    it was; the setter is a total function, so the assignment cannot fail. *)
Theorem criteria_set_attaches_default (c : gmap string value) :
  c !! "filter" = None →
  criteria_set c = <["filter" := create_attribute]> c ∧
  criteria_set c !! "filter" = Some create_attribute ∧
  ∀ k, k ≠ "filter" → criteria_set c !! k = c !! k.
Proof.
  intros Hc.
  rewrite criteria_set_absent by (unfold attr_get; by rewrite Hc).
  split; [done|]. split.
  - apply lookup_insert_eq.
  - intros k Hk. by apply lookup_insert_ne.
Qed.

(** C3 (amended): a criteria record whose [filter] field holds a truthy value
    (any filter object) comes back unchanged, with the same [filter], and
    assigning it a second time yields the same [filter] again; with a default
    filter that is an object the setter is idempotent on every record. *)
Theorem criteria_set_keeps_truthy_filter (c : gmap string value) (v : value) :
  c !! "filter" = Some v →
  truthy v = true →
  criteria_set c = c ∧
  criteria_set c !! "filter" = Some v ∧
  criteria_set (criteria_set c) !! "filter"
  = criteria_set c !! "filter" ∧
  (truthy create_attribute = true →
   ∀ c' : gmap string value,
     criteria_set (criteria_set c')
     = criteria_set c').
Proof.
  intros Hc Hv.
  assert (criteria_set c = c) as Hid.
  { apply criteria_set_present. unfold attr_get. by rewrite Hc. }
  rewrite !Hid. repeat split; try done.
  intros Hobj c'. by apply criteria_set_idempotent.
Qed.


(** ** [mappingTypes] *)

(** The filter callback of [mappingTypes] lets through exactly the model
    types with a non-empty singular identifier and a non-empty singular
    title. *)
Lemma callback_truthy (m : Model) :
  truthy (logical_and (of_prop (model_singular m))
                      (of_prop (title_singular m))) = true ↔ named m.
Proof.
  unfold named, logical_and.
  destruct m as [[[|a s]|] [[|b t]|]]; simpl; split;
    try discriminate; try (intros (? & ? & ? & ? & ? & ?); congruence).
  intros _. by exists (String a s), (String b t).
Qed.

Lemma types_named (vm : ViewModel) : Forall named (types vm).
Proof.
  eapply Forall_impl; [apply filter_truthy|].
  intros m Hm. by apply callback_truthy.
Qed.

(** Every candidate is the constructor registered under one of the names
    the model maps to. *)
Lemma types_registered (vm : ViewModel) :
  Forall
    (λ m, ∃ k, k ∈ lodash.keys (get_canonical_mappings_for (modelName vm)) ∧
               CMS_Models !! k = Some m)
    (types vm).
Proof.
  apply Forall_filter, Forall_sortBy, Forall_compact_map.
  intros k m Hk Hm. by exists k.
Qed.

Lemma types_sorted (vm : ViewModel) : StronglySorted singular_le (types vm).
Proof.
  pose proof (types_named vm) as Hnamed.
  assert (StronglySorted (λ a b, key_le (model_singular a) (model_singular b))
            (types vm)) as Hsorted.
  { apply filter_sorted, sortBy_sorted. }
  induction Hsorted as [|m l Hl IH Hm]; [constructor|].
  apply Forall_cons in Hnamed as [Hx Hnamed].
  constructor; [by apply IH|].
  apply Forall_forall. intros y Hy.
  destruct Hx as (s & _ & Hs & _).
  pose proof (proj1 (Forall_forall _ _) Hnamed y Hy) as (s' & _ & Hs' & _).
  pose proof (proj1 (Forall_forall _ _) Hm y Hy) as Hle.
  exists s, s'. rewrite Hs, Hs' in *. repeat split; try done.
  by apply key_le_strings.
Qed.

(** When it returns, [mappingTypes] returns its local [types]. *)
Lemma mappingTypes_returns_types (vm vm' : ViewModel) (l : list Model) :
  mappingTypes vm = Ok (l, vm') → l = types vm.
Proof.
  unfold mappingTypes.
  destruct (negb _); [destruct (lodash.first _)|]; congruence.
Qed.

(** With a selected type the call computes the list and changes nothing. *)
Lemma mappingTypes_selected (vm : ViewModel) :
  truthy (attr_get (criteria vm) "objectName") = true →
  mappingTypes vm = Ok (types vm, vm).
Proof. unfold mappingTypes. by intros ->. Qed.

(** With no selected type and no candidate the call throws. *)
Lemma mappingTypes_throws (vm : ViewModel) :
  truthy (attr_get (criteria vm) "objectName") = false →
  types vm = [] →
  mappingTypes vm
  = TypeError "Cannot read property 'model_singular' of undefined".
Proof. unfold mappingTypes. by intros -> ->. Qed.

(** C4: whatever the model name and the registries, a list returned by
    [mappingTypes] holds only model types with a non-empty singular
    identifier and a non-empty singular title, in ascending order of the
    singular identifier. *)
Theorem mappingTypes_named_sorted (vm vm' : ViewModel) (l : list Model) :
  mappingTypes vm = Ok (l, vm') →
  Forall named l ∧ StronglySorted singular_le l.
Proof.
  intros ->%mappingTypes_returns_types.
  split; [apply types_named | apply types_sorted].
Qed.

(** C5: when [criteria.objectName] is unset (absent, or holding a falsy
    value) and the filtered sorted list is not empty, the call returns that
    list and leaves [criteria.objectName] equal to the singular identifier of
    its first entry, the rest of the view model as it was. *)
Theorem mappingTypes_selects_first (vm : ViewModel) (m : Model) (rest : list Model) :
  truthy (attr_get (criteria vm) "objectName") = false →
  types vm = m :: rest →
  ∃ s vm',
    model_singular m = Some s ∧
    mappingTypes vm = Ok (m :: rest, vm') ∧
    criteria vm' !! "objectName" = Some (VStr s) ∧
    vm' = attr_criteria vm "objectName" (VStr s).
Proof.
  intros Hunset Htypes.
  pose proof (types_named vm) as Hnamed. rewrite Htypes in Hnamed.
  apply Forall_cons in Hnamed as [(s & _ & Hs & _) _].
  exists s, (attr_criteria vm "objectName" (VStr s)).
  split; [done|]. split; [|split; [apply lookup_insert_eq | done]].
  unfold mappingTypes. rewrite Hunset, Htypes. simpl. by rewrite Hs.
Qed.


(** ** [title] *)

Lemma title_root (vm : ViewModel) :
  root vm = true → title vm = Ok "Mapped To".
Proof. unfold title. by intros ->. Qed.

Lemma title_model (vm : ViewModel) (m : Model) :
  root vm = false →
  CMS_Models !! property_key (modelName vm) = Some m →
  title vm
  = Ok ("Where " +:+ prop_to_string (title_singular m) +:+ " is mapped to").
Proof. unfold title. by intros -> ->. Qed.

(** Without [root] and without a constructor registered under [modelName]
    the call throws. *)
Lemma title_throws (vm : ViewModel) :
  root vm = false →
  CMS_Models !! property_key (modelName vm) = None →
  title vm = TypeError "Cannot read property 'title_singular' of undefined".
Proof. unfold title. by intros -> ->. Qed.

(** C7 (amended): [title] returns the fixed root label when [root] is true,
    whatever [modelName] is; when [root] is false and [modelName] names a
    constructor registered in [CMS.Models], it returns the sentence around
    that constructor's singular title, which for the model name "Program"
    registered with the title "Program" is "Where Program is mapped to". *)
Theorem title_root_or_registered (vm : ViewModel) :
  (root vm = true → title vm = Ok "Mapped To") ∧
  (root vm = false →
   ∀ m, CMS_Models !! property_key (modelName vm) = Some m →
        title vm
        = Ok ("Where " +:+ prop_to_string (title_singular m)
                +:+ " is mapped to")) ∧
  (root vm = false →
   modelName vm = Some "Program" →
   ∀ m, CMS_Models !! "Program" = Some m →
        title_singular m = Some "Program" →
        title vm = Ok "Where Program is mapped to").
Proof.
  split; [apply title_root|]. split.
  - intros Hroot m Hm. by apply title_model.
  - intros Hroot Hname m Hm Ht.
    rewrite (title_model vm m Hroot); [by rewrite Ht|].
    by rewrite Hname.
Qed.

(** ** [remove] *)

(** C8: [remove] sends the one event "remove" to the listeners and leaves
    [criteria], [modelName], [root] and [availableAttributes] as they were. *)
Theorem remove_dispatches_only (vm : ViewModel) :
  (remove vm).1 = ["remove"] ∧
  criteria (remove vm).2 = criteria vm ∧
  modelName (remove vm).2 = modelName vm ∧
  root (remove vm).2 = root vm ∧
  availableAttributes (remove vm).2 = availableAttributes vm ∧
  (remove vm).2 = vm.
Proof. by repeat split. Qed.

(** ** [addRelevant] and [removeRelevant] *)

Lemma removeRelevant_mappedTo (vm : ViewModel) :
  criteria (removeRelevant vm) !! "mappedTo" = None.
Proof. apply lookup_delete_eq. Qed.

Lemma addRelevant_mappedTo (vm : ViewModel) :
  criteria (addRelevant vm) !! "mappedTo" = Some create_mappingCriteria.
Proof. apply lookup_insert_eq. Qed.

Lemma removeRelevant_id (vm : ViewModel) :
  criteria vm !! "mappedTo" = None → removeRelevant vm = vm.
Proof.
  intros Hvm. destruct vm as [c n r a]; simpl in *.
  unfold removeRelevant, removeAttr_criteria, removeAttr; simpl.
  by rewrite delete_id.
Qed.

Lemma removeRelevant_addRelevant (vm : ViewModel) :
  removeRelevant (addRelevant vm) = removeRelevant vm.
Proof.
  unfold removeRelevant, addRelevant, removeAttr_criteria, attr_criteria,
    removeAttr, attr_set; simpl.
  by rewrite delete_insert_eq.
Qed.

(** C6 (amended): after [addRelevant] and then [removeRelevant] the criteria
    record has no [mappedTo] field, and the view model is what it was before
    [addRelevant] exactly when the record had no [mappedTo] field then. *)
Theorem addRelevant_then_removeRelevant (vm : ViewModel) :
  criteria (removeRelevant (addRelevant vm)) !! "mappedTo" = None ∧
  (removeRelevant (addRelevant vm) = vm ↔ criteria vm !! "mappedTo" = None).
Proof.
  split; [apply removeRelevant_mappedTo|].
  rewrite removeRelevant_addRelevant. split.
  - intros <-. apply removeRelevant_mappedTo.
  - apply removeRelevant_id.
Qed.

(** C9: on a criteria record with no [mappedTo] field [removeRelevant]
    changes nothing, so calling it twice is calling it once; the method is
    a total function and cannot fail. *)
Theorem removeRelevant_absent_idempotent (vm : ViewModel) :
  (criteria vm !! "mappedTo" = None → removeRelevant vm = vm) ∧
  removeRelevant (removeRelevant vm) = removeRelevant vm.
Proof.
  split; [apply removeRelevant_id|].
  apply removeRelevant_id, removeRelevant_mappedTo.
Qed.

(** C10: [addRelevant] leaves the node made by the factory under [mappedTo],
    whatever was there: the result does not depend on an earlier [mappedTo],
    and no other field of the record or of the view model changes. *)
Theorem addRelevant_overwrites (vm : ViewModel) :
  criteria (addRelevant vm) !! "mappedTo" = Some create_mappingCriteria ∧
  (∀ old, addRelevant (attr_criteria vm "mappedTo" old) = addRelevant vm) ∧
  (∀ k, k ≠ "mappedTo" → criteria (addRelevant vm) !! k = criteria vm !! k) ∧
  modelName (addRelevant vm) = modelName vm ∧
  root (addRelevant vm) = root vm ∧
  availableAttributes (addRelevant vm) = availableAttributes vm.
Proof.
  split; [apply addRelevant_mappedTo|]. split; [|split; [|done]].
  - intros old.
    unfold addRelevant, attr_criteria, attr_set; simpl.
    by rewrite insert_insert_eq.
  - intros k Hk. by apply lookup_insert_ne.
Qed.

(** ** The setter on every record *)

Lemma attr_get_truthy (c : gmap string value) (k : string) :
  truthy (attr_get c k) = true → c !! k = Some (attr_get c k).
Proof. unfold attr_get. by destruct (c !! k). Qed.

(** X1: on every record the setter leaves each field other than [filter] as
    it was, keeps a truthy [filter] and puts the factory's value in the place
    of a [filter] that is missing or falsy. *)
Theorem criteria_set_result (c : gmap string value) :
  criteria_set c !! "filter"
  = Some (if truthy (attr_get c "filter") then attr_get c "filter"
          else create_attribute) ∧
  ∀ k, k ≠ "filter" → criteria_set c !! k = c !! k.
Proof.
  destruct (truthy (attr_get c "filter")) eqn:Hc.
  - rewrite criteria_set_present by done.
    split; [by apply attr_get_truthy | done].
  - rewrite criteria_set_absent by done.
    split; [apply lookup_insert_eq|].
    intros k Hk. by apply lookup_insert_ne.
Qed.

(** X2: when the factory returns an object, the record the setter returns
    always has a truthy [filter]. *)
Theorem criteria_set_filter_truthy (c : gmap string value) :
  truthy create_attribute = true →
  truthy (attr_get (criteria_set c) "filter") = true.
Proof.
  intros Hobj. destruct (truthy (attr_get c "filter")) eqn:Hc.
  - by rewrite criteria_set_present.
  - rewrite criteria_set_absent by done.
    unfold attr_get. by rewrite lookup_insert_eq.
Qed.

(** X3: the setter commutes with writing and with removing any attribute
    other than [filter]. *)
Theorem criteria_set_commutes (c : gmap string value) (k : string) (v : value) :
  k ≠ "filter" →
  criteria_set (attr_set c k v) = attr_set (criteria_set c) k v ∧
  criteria_set (removeAttr c k) = removeAttr (criteria_set c) k.
Proof.
  intros Hk. unfold criteria_set, attr_get, attr_set, removeAttr.
  rewrite lookup_insert_ne, lookup_delete_ne by done.
  destruct (negb _); [|done].
  split.
  - by apply insert_insert_ne.
  - symmetry. by apply delete_insert_ne.
Qed.

(** ** Membership and length through the lodash helpers *)

Section lodash_membership.
Context {A : Type}.

Lemma elem_of_sortBy_insert (key : A → option string) (x y : A) (l : list A) :
  y ∈ lodash.sortBy_insert key x l ↔ y = x ∨ y ∈ l.
Proof.
  induction l as [|z l IH]; simpl.
  - rewrite list_elem_of_singleton, elem_of_nil.
    split; [by left | by intros [?|[]]].
  - destruct (lodash.compareAscending (key x) (key z)).
    + by rewrite elem_of_cons.
    + by rewrite elem_of_cons.
    + rewrite !elem_of_cons, IH. split; intros [?|[?|?]]; auto.
Qed.

Lemma elem_of_sortBy (key : A → option string) (y : A) (l : list A) :
  y ∈ lodash.sortBy key l ↔ y ∈ l.
Proof.
  induction l as [|x l IH]; simpl; [done|].
  by rewrite elem_of_sortBy_insert, elem_of_cons, IH.
Qed.

Lemma elem_of_filter (f : A → value) (y : A) (l : list A) :
  y ∈ lodash.filter f l ↔ truthy (f y) = true ∧ y ∈ l.
Proof.
  induction l as [|x l IH]; simpl.
  - rewrite elem_of_nil. split; [done | by intros [_ ?]].
  - destruct (truthy (f x)) eqn:Hx; rewrite ?elem_of_cons, IH.
    + split.
      * intros [->|[? ?]]; auto.
      * intros [? [?|?]]; auto.
    + split.
      * intros [? ?]; auto.
      * intros [Hy [->|?]]; [congruence | auto].
Qed.

Lemma elem_of_compact_map {K : Type} (g : K → option A) (x : A) (ks : list K) :
  x ∈ lodash.compact (lodash.map g ks) ↔ ∃ k, k ∈ ks ∧ g k = Some x.
Proof.
  induction ks as [|k ks IH]; simpl.
  - rewrite elem_of_nil. split; [done|]. intros (k & Hk & _).
    by apply elem_of_nil in Hk.
  - destruct (g k) as [z|] eqn:Hk; simpl; rewrite ?elem_of_cons, IH.
    + split.
      * intros [->|(k' & Hk' & Hx)]; [exists k | exists k'];
          rewrite elem_of_cons; auto.
      * intros (k' & [->|Hk']%elem_of_cons & Hx);
          [left; congruence | right; eauto].
    + split.
      * intros (k' & Hk' & Hx). exists k'. rewrite elem_of_cons. auto.
      * intros (k' & [->|Hk']%elem_of_cons & Hx); [congruence | eauto].
Qed.

Lemma length_sortBy_insert (key : A → option string) (x : A) (l : list A) :
  length (lodash.sortBy_insert key x l) = S (length l).
Proof.
  induction l as [|z l IH]; simpl; [done|].
  destruct (lodash.compareAscending (key x) (key z)); simpl; by rewrite ?IH.
Qed.

Lemma length_sortBy (key : A → option string) (l : list A) :
  length (lodash.sortBy key l) = length l.
Proof.
  induction l as [|x l IH]; simpl; [done|].
  by rewrite length_sortBy_insert, IH.
Qed.

Lemma length_filter (f : A → value) (l : list A) :
  (length (lodash.filter f l) ≤ length l)%nat.
Proof.
  induction l as [|x l IH]; simpl; [done|].
  destruct (truthy (f x)); simpl; lia.
Qed.

Lemma length_compact_map {K : Type} (g : K → option A) (ks : list K) :
  (length (lodash.compact (lodash.map g ks)) ≤ length ks)%nat.
Proof.
  induction ks as [|k ks IH]; simpl; [done|].
  destruct (g k); simpl; lia.
Qed.

End lodash_membership.

(** ** More on [mappingTypes] *)

Lemma types_modelName (vm1 vm2 : ViewModel) :
  modelName vm1 = modelName vm2 → types vm1 = types vm2.
Proof. unfold types. by intros ->. Qed.

Lemma elem_of_types (vm : ViewModel) (m : Model) :
  m ∈ types vm ↔
  named m ∧
  ∃ k, k ∈ lodash.keys (get_canonical_mappings_for (modelName vm)) ∧
       CMS_Models !! k = Some m.
Proof.
  unfold types.
  rewrite elem_of_filter, elem_of_sortBy, elem_of_compact_map.
  by rewrite callback_truthy.
Qed.

(** What a returning call leaves behind, in the two branches of the guard. *)
Lemma mappingTypes_Ok (vm vm' : ViewModel) (l : list Model) :
  mappingTypes vm = Ok (l, vm') →
  l = types vm ∧
  ((truthy (attr_get (criteria vm) "objectName") = true ∧ vm' = vm) ∨
   (truthy (attr_get (criteria vm) "objectName") = false ∧
    ∃ m rest a s,
      types vm = m :: rest ∧ model_singular m = Some (String a s) ∧
      vm' = attr_criteria vm "objectName" (VStr (String a s)))).
Proof.
  unfold mappingTypes.
  destruct (truthy (attr_get (criteria vm) "objectName")) eqn:Hsel; simpl.
  - intros [= <- <-]. split; [done|]. by left.
  - destruct (types vm) as [|m rest] eqn:Htypes; simpl; [done|].
    intros [= <- <-]. split; [done|]. right. split; [done|].
    pose proof (types_named vm) as Hnamed. rewrite Htypes in Hnamed.
    apply Forall_cons in Hnamed as [(s & _ & Hs & Hne & _) _].
    destruct s as [|a s]; [done|].
    exists m, rest, a, s. by rewrite Hs.
Qed.

(** X4: a model type is in the list [mappingTypes] returns exactly when it
    has a non-empty singular identifier and a non-empty singular title and is
    registered in [CMS.Models] under one of the names the current model maps
    to. *)
Theorem mappingTypes_membership (vm vm' : ViewModel) (l : list Model) (m : Model) :
  mappingTypes vm = Ok (l, vm') →
  (m ∈ l ↔
   named m ∧
   ∃ k, k ∈ lodash.keys (get_canonical_mappings_for (modelName vm)) ∧
        CMS_Models !! k = Some m).
Proof.
  intros [-> _]%mappingTypes_Ok. apply elem_of_types.
Qed.

(** X5: [mappingTypes] throws exactly when no type is selected and no
    candidate is left after filtering; in every other state it returns. *)
Theorem mappingTypes_throws_iff (vm : ViewModel) :
  (∃ msg, mappingTypes vm = TypeError msg) ↔
  truthy (attr_get (criteria vm) "objectName") = false ∧ types vm = [].
Proof.
  unfold mappingTypes.
  destruct (truthy (attr_get (criteria vm) "objectName")); simpl.
  - split; [by intros [? ?] | by intros [? _]].
  - destruct (types vm); simpl.
    + split; [done | eauto].
    + split; [by intros [? ?] | by intros [_ ?]].
Qed.

(** X6: a second call changes nothing: after a call that returned, the next
    call returns the same list and the same view model. *)
Theorem mappingTypes_again (vm vm' : ViewModel) (l : list Model) :
  mappingTypes vm = Ok (l, vm') → mappingTypes vm' = Ok (l, vm').
Proof.
  intros Hcall.
  destruct (mappingTypes_Ok _ _ _ Hcall)
    as [-> [[_ ->]|[_ (m & rest & a & s & _ & _ & ->)]]]; [done|].
  rewrite (types_modelName vm (attr_criteria vm "objectName" (VStr (String a s))))
    by done.
  apply mappingTypes_selected.
  unfold attr_get; simpl. unfold attr_set. by rewrite lookup_insert_eq.
Qed.

(** X7: a returning call writes nothing but [criteria.objectName]: every
    other field of the record and [modelName], [root] and
    [availableAttributes] are as before, and a selection that was there is
    kept. *)
Theorem mappingTypes_frame (vm vm' : ViewModel) (l : list Model) :
  mappingTypes vm = Ok (l, vm') →
  (∀ k, k ≠ "objectName" → criteria vm' !! k = criteria vm !! k) ∧
  modelName vm' = modelName vm ∧
  root vm' = root vm ∧
  availableAttributes vm' = availableAttributes vm ∧
  (truthy (attr_get (criteria vm) "objectName") = true → vm' = vm).
Proof.
  intros Hcall.
  destruct (mappingTypes_Ok _ _ _ Hcall)
    as [_ [[_ ->]|[Hunset (m & rest & a & s & _ & _ & ->)]]]; [done|].
  repeat split; try done.
  - intros k Hk. by apply lookup_insert_ne.
  - congruence.
Qed.

(** X8: after a call that returned, [criteria.objectName] is truthy. *)
Theorem mappingTypes_selected_after (vm vm' : ViewModel) (l : list Model) :
  mappingTypes vm = Ok (l, vm') →
  truthy (attr_get (criteria vm') "objectName") = true.
Proof.
  intros Hcall.
  destruct (mappingTypes_Ok _ _ _ Hcall)
    as [_ [[Hsel ->]|[_ (m & rest & a & s & _ & _ & ->)]]]; [done|].
  unfold attr_get; simpl. unfold attr_set. by rewrite lookup_insert_eq.
Qed.

(** X9: the type selected by default has the least singular identifier of
    the returned list. *)
Theorem mappingTypes_default_least (vm vm' : ViewModel) (l : list Model) :
  truthy (attr_get (criteria vm) "objectName") = false →
  mappingTypes vm = Ok (l, vm') →
  ∃ s, criteria vm' !! "objectName" = Some (VStr s) ∧
       Forall (λ m, ∃ y, model_singular m = Some y ∧ String.leb s y = true) l.
Proof.
  intros Hunset Hcall.
  destruct (mappingTypes_Ok _ _ _ Hcall)
    as [-> [[Hsel _]|[_ (m & rest & a & s & Htypes & Hm & ->)]]];
    [congruence|].
  exists (String a s). split; [apply lookup_insert_eq|].
  pose proof (types_sorted vm) as Hsorted. rewrite Htypes in *.
  apply StronglySorted_inv in Hsorted as [_ Hrest].
  constructor.
  - exists (String a s). split; [done|].
    apply Is_true_true. change (String.le (String a s) (String a s)).
    reflexivity.
  - eapply Forall_impl; [exact Hrest|].
    intros m' (x & y & Hx & Hy & Hle). exists y. split; [done|]. congruence.
Qed.

(** X10: the returned list is no longer than the list of names the current
    model maps to. *)
Theorem mappingTypes_length (vm vm' : ViewModel) (l : list Model) :
  mappingTypes vm = Ok (l, vm') →
  (length l ≤ length (get_canonical_mappings_for (modelName vm)))%nat.
Proof.
  intros [-> _]%mappingTypes_Ok. unfold types.
  etrans; [apply length_filter|]. rewrite length_sortBy.
  etrans; [apply length_compact_map|].
  unfold lodash.keys. by rewrite length_fmap.
Qed.

(** X11: the relevance sub-clause does not matter to [mappingTypes]: the
    call returns the same list with and without it, and selecting the default
    type commutes with [addRelevant] and with [removeRelevant]. *)
Theorem mappingTypes_commutes_relevant (vm vm' : ViewModel) (l : list Model) :
  mappingTypes vm = Ok (l, vm') →
  mappingTypes (addRelevant vm) = Ok (l, addRelevant vm') ∧
  mappingTypes (removeRelevant vm) = Ok (l, removeRelevant vm').
Proof.
  intros Hcall.
  destruct (mappingTypes_Ok _ _ _ Hcall)
    as [-> [[Hsel ->]|[Hunset (m & rest & a & s & Htypes & Hm & ->)]]].
  - split.
    + rewrite (types_modelName vm (addRelevant vm)) by done.
      apply mappingTypes_selected. unfold attr_get in *; simpl.
      unfold attr_set. by rewrite lookup_insert_ne.
    + rewrite (types_modelName vm (removeRelevant vm)) by done.
      apply mappingTypes_selected. unfold attr_get in *; simpl.
      unfold removeAttr. by rewrite lookup_delete_ne.
  - split; unfold mappingTypes.
    + rewrite (types_modelName (addRelevant vm) vm) by done.
      unfold attr_get in *; simpl. unfold attr_set.
      rewrite lookup_insert_ne, Hunset, Htypes by done. simpl. rewrite Hm.
      do 2 f_equal. unfold addRelevant, attr_criteria, attr_set; simpl.
      f_equal. by apply insert_insert_ne.
    + rewrite (types_modelName (removeRelevant vm) vm) by done.
      unfold attr_get in *; simpl. unfold removeAttr.
      rewrite lookup_delete_ne, Hunset, Htypes by done. simpl. rewrite Hm.
      do 2 f_equal.
      unfold removeRelevant, removeAttr_criteria, attr_criteria, attr_set,
        removeAttr; simpl.
      f_equal. symmetry. by apply delete_insert_ne.
Qed.

(** ** The relevance toggle *)

Lemma addRelevant_removeRelevant (vm : ViewModel) :
  addRelevant (removeRelevant vm) = addRelevant vm.
Proof.
  unfold removeRelevant, addRelevant, removeAttr_criteria, attr_criteria,
    removeAttr, attr_set; simpl.
  by rewrite insert_delete_eq.
Qed.

Lemma removeRelevant_relevant_run (actions : list RelevantAction) (vm : ViewModel) :
  removeRelevant (relevant_run vm actions) = removeRelevant vm.
Proof.
  revert vm. induction actions as [|a actions IH]; intros vm; [done|].
  unfold relevant_run in *; simpl. rewrite IH. destruct a; simpl.
  - apply removeRelevant_addRelevant.
  - apply removeRelevant_id, removeRelevant_mappedTo.
Qed.

(** X12: whatever calls of [addRelevant] and [removeRelevant] came before,
    the view model after the last call is the one that call alone gives:
    the record has a [mappedTo] sub-clause after the run exactly when the
    last call was [addRelevant]. *)
Theorem relevant_run_last (actions : list RelevantAction) (a : RelevantAction)
    (vm : ViewModel) :
  relevant_run vm (actions ++ [a]) = relevant_step vm a ∧
  (is_Some (criteria (relevant_run vm (actions ++ [a])) !! "mappedTo")
   ↔ a = AddRelevant).
Proof.
  assert (relevant_run vm (actions ++ [a]) = relevant_step vm a) as ->.
  { unfold relevant_run. rewrite foldl_app; simpl.
    fold (relevant_run vm actions). destruct a; simpl.
    - rewrite <- addRelevant_removeRelevant, removeRelevant_relevant_run.
      apply addRelevant_removeRelevant.
    - apply removeRelevant_relevant_run. }
  split; [done|]. destruct a; cbn [relevant_step].
  - rewrite addRelevant_mappedTo. split; [done | by eexists].
  - rewrite removeRelevant_mappedTo. split; [by intros [? ?] | done].
Qed.

(** X13: [removeRelevant] takes nothing but [mappedTo] away: every other
    field of the record and [modelName], [root] and [availableAttributes]
    are as before. *)
Theorem removeRelevant_frame (vm : ViewModel) :
  (∀ k, k ≠ "mappedTo" → criteria (removeRelevant vm) !! k = criteria vm !! k) ∧
  modelName (removeRelevant vm) = modelName vm ∧
  root (removeRelevant vm) = root vm ∧
  availableAttributes (removeRelevant vm) = availableAttributes vm.
Proof.
  repeat split. intros k Hk. by apply lookup_delete_ne.
Qed.

(** X14: no method of the view model writes [criteria.filter]: after
    [addRelevant], [removeRelevant], [remove] and a returning [mappingTypes]
    the field is what it was. *)
Theorem methods_keep_filter (vm : ViewModel) :
  criteria (addRelevant vm) !! "filter" = criteria vm !! "filter" ∧
  criteria (removeRelevant vm) !! "filter" = criteria vm !! "filter" ∧
  criteria (remove vm).2 !! "filter" = criteria vm !! "filter" ∧
  ∀ l vm', mappingTypes vm = Ok (l, vm') →
           criteria vm' !! "filter" = criteria vm !! "filter".
Proof.
  split; [by apply lookup_insert_ne|].
  split; [by apply lookup_delete_ne|].
  split; [done|].
  intros l vm' Hcall.
  destruct (mappingTypes_Ok _ _ _ Hcall)
    as [_ [[_ ->]|[_ (m & rest & a & s & _ & _ & ->)]]]; [done|].
  by apply lookup_insert_ne.
Qed.

(** X15: a record assigned through the setter and then handed to a
    returning [mappingTypes] has a truthy [filter] and a truthy
    [objectName], the factory's value being an object. *)
Theorem assign_then_mappingTypes (vm vm' : ViewModel) (c : gmap string value)
    (l : list Model) :
  truthy create_attribute = true →
  mappingTypes (assign_criteria vm c) = Ok (l, vm') →
  truthy (attr_get (criteria vm') "filter") = true ∧
  truthy (attr_get (criteria vm') "objectName") = true.
Proof.
  intros Hobj Hcall.
  assert (truthy (attr_get (criteria_set c) "filter") = true) as Hfilter.
  { destruct (truthy (attr_get c "filter")) eqn:Hc.
    - by rewrite criteria_set_present.
    - rewrite criteria_set_absent by done.
      unfold attr_get. by rewrite lookup_insert_eq. }
  destruct (mappingTypes_Ok _ _ _ Hcall)
    as [_ [[Hsel ->]|[_ (m & rest & a & s & _ & _ & ->)]]]; [done|].
  unfold attr_get in *; simpl in *. unfold attr_set.
  by rewrite lookup_insert_ne, lookup_insert_eq.
Qed.

(** ** More on [title] *)


(** X17: the root label is the title of root nodes only: [title] returns
    "Mapped To" exactly when [root] is true, whatever the registry holds. *)
Theorem title_root_label_iff (vm : ViewModel) :
  title vm = Ok "Mapped To" ↔ root vm = true.
Proof.
  split; [|apply title_root].
  unfold title. destruct (root vm); [done|].
  destruct (CMS_Models !! property_key (modelName vm)); discriminate.
Qed.

(** X18: for a constructor that is registered but declares no singular
    title, [title] does not throw: it returns the sentence around the word
    "undefined". *)
Theorem title_without_singular_title (vm : ViewModel) (m : Model) :
  root vm = false →
  CMS_Models !! property_key (modelName vm) = Some m →
  title_singular m = None →
  title vm = Ok "Where undefined is mapped to".
Proof.
  intros Hroot Hm Ht. rewrite (title_model vm m Hroot Hm). by rewrite Ht.
Qed.

End viewModel.

Arguments types CMS_Models {Mapping} get_canonical_mappings_for vm.
Arguments mappingTypes CMS_Models {Mapping} get_canonical_mappings_for vm.

(** ** The properties on the sample registry *)

(** C1: with no candidate type and no selected type the call throws where
    the guarded default selection would leave [objectName] unset. *)
Theorem mappingTypes_no_candidate_throws :
  criteria Sample.audit_clause !! "objectName" = None ∧
  types Sample.Models Sample.mappings Sample.audit_clause = [] ∧
  mappingTypes Sample.Models Sample.mappings Sample.audit_clause
  = TypeError "Cannot read property 'model_singular' of undefined".
Proof. by vm_compute. Qed.

Lemma criteria_set_attaches_default_witness :
  Sample.unfiltered !! "filter" = None ∧
  criteria_set create.attribute Sample.unfiltered
  = <["filter" := create.attribute]> Sample.unfiltered ∧
  criteria_set create.attribute Sample.unfiltered !! "filter"
  = Some create.attribute ∧
  ∀ k, k ≠ "filter" →
       criteria_set create.attribute Sample.unfiltered !! k
       = Sample.unfiltered !! k.
Proof.
  split; [reflexivity|].
  apply (criteria_set_attaches_default create.attribute Sample.unfiltered).
  reflexivity.
Defined.

(** A [filter] field that holds [null] is a field the setter replaces. *)
Lemma criteria_set_replaces_null_filter :
  Sample.null_filter !! "filter" = Some VNull ∧
  criteria_set create.attribute Sample.null_filter !! "filter"
  = Some create.attribute ∧
  create.attribute ≠ VNull.
Proof. split; [reflexivity|]. split; [reflexivity | discriminate]. Qed.

Lemma criteria_set_keeps_truthy_filter_witness :
  Sample.filtered !! "filter"
  = Some (VObj [("type", VStr "attribute");
                ("value", VObj [("field", VStr "title")])]) ∧
  truthy (VObj [("type", VStr "attribute");
                ("value", VObj [("field", VStr "title")])]) = true ∧
  criteria_set create.attribute Sample.filtered = Sample.filtered ∧
  criteria_set create.attribute Sample.filtered !! "filter"
  = Some (VObj [("type", VStr "attribute");
                ("value", VObj [("field", VStr "title")])]) ∧
  criteria_set create.attribute
    (criteria_set create.attribute Sample.filtered) !! "filter"
  = criteria_set create.attribute Sample.filtered !! "filter" ∧
  (truthy create.attribute = true →
   ∀ c' : gmap string value,
     criteria_set create.attribute (criteria_set create.attribute c')
     = criteria_set create.attribute c').
Proof.
  split; [reflexivity|]. split; [reflexivity|].
  apply (criteria_set_keeps_truthy_filter create.attribute Sample.filtered);
    reflexivity.
Defined.

Lemma mappingTypes_named_sorted_witness :
  mappingTypes Sample.Models Sample.mappings Sample.program_clause
  = Ok ([Sample.Audit; Sample.Control],
        attr_criteria Sample.program_clause "objectName" (VStr "Audit")) ∧
  Forall named [Sample.Audit; Sample.Control] ∧
  StronglySorted singular_le [Sample.Audit; Sample.Control].
Proof.
  assert (mappingTypes Sample.Models Sample.mappings Sample.program_clause
          = Ok ([Sample.Audit; Sample.Control],
                attr_criteria Sample.program_clause "objectName"
                  (VStr "Audit"))) as Hcall by reflexivity.
  split; [exact Hcall|].
  exact (mappingTypes_named_sorted _ _ _ _ _ _ Hcall).
Defined.

Lemma mappingTypes_selects_first_witness :
  truthy (attr_get (criteria Sample.program_clause) "objectName") = false ∧
  types Sample.Models Sample.mappings Sample.program_clause
  = [Sample.Audit; Sample.Control] ∧
  ∃ s vm',
    model_singular Sample.Audit = Some s ∧
    mappingTypes Sample.Models Sample.mappings Sample.program_clause
    = Ok ([Sample.Audit; Sample.Control], vm') ∧
    criteria vm' !! "objectName" = Some (VStr s) ∧
    vm' = attr_criteria Sample.program_clause "objectName" (VStr s).
Proof.
  split; [reflexivity|]. split; [reflexivity|].
  apply (mappingTypes_selects_first Sample.Models unit Sample.mappings
           Sample.program_clause Sample.Audit [Sample.Control]);
    reflexivity.
Defined.

(** A record that had a relevance sub-clause before [addRelevant] has none
    after [removeRelevant], so it is not what it was. *)
Lemma addRelevant_then_removeRelevant_loses_mappedTo :
  criteria Sample.with_relevant !! "mappedTo"
  = Some (VObj [("objectName", VStr "Audit")]) ∧
  criteria (removeRelevant (addRelevant create.mappingCriteria
                              Sample.with_relevant)) !! "mappedTo" = None ∧
  removeRelevant (addRelevant create.mappingCriteria Sample.with_relevant)
  ≠ Sample.with_relevant.
Proof.
  split; [reflexivity|]. split; [reflexivity|].
  intros Heq.
  apply (f_equal (λ vm, criteria vm !! "mappedTo")) in Heq.
  discriminate Heq.
Qed.

(** In the state the component is declared with, [root] false and
    [modelName] null, [title] throws. *)
Lemma title_throws_in_initial_state :
  root initial = false ∧
  modelName initial = None ∧
  Sample.Models !! property_key (modelName initial) = None ∧
  title Sample.Models initial
  = TypeError "Cannot read property 'title_singular' of undefined".
Proof. repeat split; reflexivity. Qed.

Example title_program :
  title Sample.Models Sample.program_clause = Ok "Where Program is mapped to".
Proof. reflexivity. Qed.

Example title_root_without_model :
  title Sample.Models
    {| criteria := ∅; modelName := None; root := true;
       availableAttributes := [] |}
  = Ok "Mapped To".
Proof. reflexivity. Qed.

Example sortBy_is_stable :
  lodash.sortBy snd [("b", Some "x"); ("a", None); ("c", Some "x");
                     ("d", Some "a")]
  = [("d", Some "a"); ("b", Some "x"); ("c", Some "x"); ("a", None)].
Proof. reflexivity. Qed.

Example removeRelevant_twice :
  removeRelevant (removeRelevant Sample.with_relevant)
  = removeRelevant Sample.with_relevant
  ∧ criteria (removeRelevant Sample.with_relevant)
    = {[ "objectName" := VStr "Control" ]}.
Proof.
  split; [|reflexivity].
  apply removeRelevant_id, removeRelevant_mappedTo.
Qed.

Example addRelevant_replaces :
  criteria (addRelevant create.mappingCriteria Sample.with_relevant)
  = {[ "objectName" := VStr "Control";
       "mappedTo" := create.mappingCriteria ]}.
Proof. reflexivity. Qed.

(** ** The further properties on the sample registry *)

Lemma criteria_set_filter_truthy_witness :
  truthy create.attribute = true ∧
  truthy (attr_get (criteria_set create.attribute Sample.null_filter) "filter")
  = true.
Proof.
  split; [reflexivity|].
  apply (criteria_set_filter_truthy create.attribute Sample.null_filter).
  reflexivity.
Defined.

Lemma criteria_set_commutes_witness :
  "mappedTo" ≠ "filter" ∧
  criteria_set create.attribute
    (attr_set Sample.unfiltered "mappedTo" create.mappingCriteria)
  = attr_set (criteria_set create.attribute Sample.unfiltered) "mappedTo"
      create.mappingCriteria ∧
  criteria_set create.attribute (removeAttr Sample.unfiltered "mappedTo")
  = removeAttr (criteria_set create.attribute Sample.unfiltered) "mappedTo".
Proof.
  assert ("mappedTo" ≠ "filter") as Hne by discriminate.
  split; [exact Hne|].
  exact (criteria_set_commutes create.attribute Sample.unfiltered "mappedTo"
           create.mappingCriteria Hne).
Defined.

Lemma mappingTypes_membership_witness :
  mappingTypes Sample.Models Sample.mappings Sample.program_clause
  = Ok ([Sample.Audit; Sample.Control],
        attr_criteria Sample.program_clause "objectName" (VStr "Audit")) ∧
  (Sample.Audit ∈ [Sample.Audit; Sample.Control] ↔
   named Sample.Audit ∧
   ∃ k, k ∈ lodash.keys (Sample.mappings (modelName Sample.program_clause)) ∧
        Sample.Models !! k = Some Sample.Audit).
Proof.
  assert (mappingTypes Sample.Models Sample.mappings Sample.program_clause
          = Ok ([Sample.Audit; Sample.Control],
                attr_criteria Sample.program_clause "objectName"
                  (VStr "Audit"))) as Hcall by reflexivity.
  split; [exact Hcall|].
  exact (mappingTypes_membership _ _ _ _ _ _ Sample.Audit Hcall).
Defined.

Lemma mappingTypes_again_witness :
  mappingTypes Sample.Models Sample.mappings Sample.program_clause
  = Ok ([Sample.Audit; Sample.Control],
        attr_criteria Sample.program_clause "objectName" (VStr "Audit")) ∧
  mappingTypes Sample.Models Sample.mappings
    (attr_criteria Sample.program_clause "objectName" (VStr "Audit"))
  = Ok ([Sample.Audit; Sample.Control],
        attr_criteria Sample.program_clause "objectName" (VStr "Audit")).
Proof.
  assert (mappingTypes Sample.Models Sample.mappings Sample.program_clause
          = Ok ([Sample.Audit; Sample.Control],
                attr_criteria Sample.program_clause "objectName"
                  (VStr "Audit"))) as Hcall by reflexivity.
  split; [exact Hcall|].
  exact (mappingTypes_again _ _ _ _ _ _ Hcall).
Defined.

Lemma mappingTypes_frame_witness :
  mappingTypes Sample.Models Sample.mappings Sample.program_clause
  = Ok ([Sample.Audit; Sample.Control],
        attr_criteria Sample.program_clause "objectName" (VStr "Audit")) ∧
  (∀ k, k ≠ "objectName" →
        criteria (attr_criteria Sample.program_clause "objectName"
                    (VStr "Audit")) !! k
        = criteria Sample.program_clause !! k) ∧
  modelName (attr_criteria Sample.program_clause "objectName" (VStr "Audit"))
  = modelName Sample.program_clause ∧
  root (attr_criteria Sample.program_clause "objectName" (VStr "Audit"))
  = root Sample.program_clause ∧
  availableAttributes
    (attr_criteria Sample.program_clause "objectName" (VStr "Audit"))
  = availableAttributes Sample.program_clause ∧
  (truthy (attr_get (criteria Sample.program_clause) "objectName") = true →
   attr_criteria Sample.program_clause "objectName" (VStr "Audit")
   = Sample.program_clause).
Proof.
  assert (mappingTypes Sample.Models Sample.mappings Sample.program_clause
          = Ok ([Sample.Audit; Sample.Control],
                attr_criteria Sample.program_clause "objectName"
                  (VStr "Audit"))) as Hcall by reflexivity.
  split; [exact Hcall|].
  exact (mappingTypes_frame _ _ _ _ _ _ Hcall).
Defined.

Lemma mappingTypes_selected_after_witness :
  mappingTypes Sample.Models Sample.mappings Sample.program_clause
  = Ok ([Sample.Audit; Sample.Control],
        attr_criteria Sample.program_clause "objectName" (VStr "Audit")) ∧
  truthy (attr_get
            (criteria (attr_criteria Sample.program_clause "objectName"
                         (VStr "Audit"))) "objectName") = true.
Proof.
  assert (mappingTypes Sample.Models Sample.mappings Sample.program_clause
          = Ok ([Sample.Audit; Sample.Control],
                attr_criteria Sample.program_clause "objectName"
                  (VStr "Audit"))) as Hcall by reflexivity.
  split; [exact Hcall|].
  exact (mappingTypes_selected_after _ _ _ _ _ _ Hcall).
Defined.

Lemma mappingTypes_default_least_witness :
  truthy (attr_get (criteria Sample.program_clause) "objectName") = false ∧
  mappingTypes Sample.Models Sample.mappings Sample.program_clause
  = Ok ([Sample.Audit; Sample.Control],
        attr_criteria Sample.program_clause "objectName" (VStr "Audit")) ∧
  ∃ s, criteria (attr_criteria Sample.program_clause "objectName"
                   (VStr "Audit")) !! "objectName" = Some (VStr s) ∧
       Forall (λ m, ∃ y, model_singular m = Some y ∧ String.leb s y = true)
         [Sample.Audit; Sample.Control].
Proof.
  assert (truthy (attr_get (criteria Sample.program_clause) "objectName")
          = false) as Hunset by reflexivity.
  assert (mappingTypes Sample.Models Sample.mappings Sample.program_clause
          = Ok ([Sample.Audit; Sample.Control],
                attr_criteria Sample.program_clause "objectName"
                  (VStr "Audit"))) as Hcall by reflexivity.
  split; [exact Hunset|]. split; [exact Hcall|].
  exact (mappingTypes_default_least _ _ _ _ _ _ Hunset Hcall).
Defined.

Lemma mappingTypes_length_witness :
  mappingTypes Sample.Models Sample.mappings Sample.program_clause
  = Ok ([Sample.Audit; Sample.Control],
        attr_criteria Sample.program_clause "objectName" (VStr "Audit")) ∧
  (length [Sample.Audit; Sample.Control]
   ≤ length (Sample.mappings (modelName Sample.program_clause)))%nat.
Proof.
  assert (mappingTypes Sample.Models Sample.mappings Sample.program_clause
          = Ok ([Sample.Audit; Sample.Control],
                attr_criteria Sample.program_clause "objectName"
                  (VStr "Audit"))) as Hcall by reflexivity.
  split; [exact Hcall|].
  exact (mappingTypes_length _ _ _ _ _ _ Hcall).
Defined.

Lemma mappingTypes_commutes_relevant_witness :
  mappingTypes Sample.Models Sample.mappings Sample.program_clause
  = Ok ([Sample.Audit; Sample.Control],
        attr_criteria Sample.program_clause "objectName" (VStr "Audit")) ∧
  mappingTypes Sample.Models Sample.mappings
    (addRelevant create.mappingCriteria Sample.program_clause)
  = Ok ([Sample.Audit; Sample.Control],
        addRelevant create.mappingCriteria
          (attr_criteria Sample.program_clause "objectName" (VStr "Audit"))) ∧
  mappingTypes Sample.Models Sample.mappings
    (removeRelevant Sample.program_clause)
  = Ok ([Sample.Audit; Sample.Control],
        removeRelevant
          (attr_criteria Sample.program_clause "objectName" (VStr "Audit"))).
Proof.
  assert (mappingTypes Sample.Models Sample.mappings Sample.program_clause
          = Ok ([Sample.Audit; Sample.Control],
                attr_criteria Sample.program_clause "objectName"
                  (VStr "Audit"))) as Hcall by reflexivity.
  split; [exact Hcall|].
  exact (mappingTypes_commutes_relevant _ _ _ create.mappingCriteria _ _ _
           Hcall).
Defined.

Lemma assign_then_mappingTypes_witness :
  truthy create.attribute = true ∧
  mappingTypes Sample.Models Sample.mappings
    (assign_criteria create.attribute Sample.program_clause ∅)
  = Ok ([Sample.Audit; Sample.Control],
        attr_criteria
          (assign_criteria create.attribute Sample.program_clause ∅)
          "objectName" (VStr "Audit")) ∧
  truthy (attr_get
            (criteria
               (attr_criteria
                  (assign_criteria create.attribute Sample.program_clause ∅)
                  "objectName" (VStr "Audit"))) "filter") = true ∧
  truthy (attr_get
            (criteria
               (attr_criteria
                  (assign_criteria create.attribute Sample.program_clause ∅)
                  "objectName" (VStr "Audit"))) "objectName") = true.
Proof.
  assert (truthy create.attribute = true) as Hobj by reflexivity.
  assert (mappingTypes Sample.Models Sample.mappings
            (assign_criteria create.attribute Sample.program_clause ∅)
          = Ok ([Sample.Audit; Sample.Control],
                attr_criteria
                  (assign_criteria create.attribute Sample.program_clause ∅)
                  "objectName" (VStr "Audit"))) as Hcall by reflexivity.
  split; [exact Hobj|]. split; [exact Hcall|].
  exact (assign_then_mappingTypes _ _ _ _ _ _ _ _ Hobj Hcall).
Defined.

Lemma title_without_singular_title_witness :
  root Sample.untitled_clause = false ∧
  Sample.Models !! property_key (modelName Sample.untitled_clause)
  = Some Sample.Untitled ∧
  title_singular Sample.Untitled = None ∧
  title Sample.Models Sample.untitled_clause
  = Ok "Where undefined is mapped to".
Proof.
  split; [reflexivity|]. split; [reflexivity|]. split; [reflexivity|].
  apply (title_without_singular_title Sample.Models Sample.untitled_clause
           Sample.Untitled); reflexivity.
Defined.

Example relevant_run_toggles :
  criteria (relevant_run create.mappingCriteria Sample.with_relevant
              [RemoveRelevant; AddRelevant; AddRelevant; RemoveRelevant])
  = {[ "objectName" := VStr "Control" ]}
  ∧ criteria (relevant_run create.mappingCriteria Sample.with_relevant
                [RemoveRelevant; RemoveRelevant; AddRelevant])
    = {[ "objectName" := VStr "Control";
         "mappedTo" := create.mappingCriteria ]}.
Proof. split; reflexivity. Qed.
